(** * ProxyHandler: the relay and shutdown coordinator of the example proxy

    A shallow embedding of [proxygen/example/http_server/ProxyHandler.cpp].
    One [ProxyHandler] object serves one client request.  Its member
    functions are callbacks run on a single event-loop thread by the
    downstream stream, the upstream connector, the upstream transaction and
    the raw upstream socket.  Every callback is embedded as a function from
    the object's fields to the object's fields; the calls it makes on its
    collaborators are appended, in program order, to a log kept next to the
    fields. *)

From Stdlib Require Import Bool List ZArith String Lia.
Import ListNotations.
Open Scope Z_scope.
Open Scope string_scope.
Open Scope list_scope.

Set Implicit Arguments.

(** ** Data of the collaborators *)

(** [proxygen::HTTPMethod]; [HTTPMessage::getMethod] answers an optional
    value, absent when the method string is none of these. *)
Inductive HTTPMethod :=
| GET | POST | OPTIONS | DELETE | HEAD | CONNECT | CONNECT_UDP
| PUT | TRACE | PATCH | SUB | PUB | UNSUB.

Definition HTTPMethod_eqb (a b : HTTPMethod) : bool :=
  match a, b with
  | GET, GET | POST, POST | OPTIONS, OPTIONS | DELETE, DELETE
  | HEAD, HEAD | CONNECT, CONNECT | CONNECT_UDP, CONNECT_UDP
  | PUT, PUT | TRACE, TRACE | PATCH, PATCH | SUB, SUB | PUB, PUB
  | UNSUB, UNSUB => true
  | _, _ => false
  end.

(** [request_->getMethod() != HTTPMethod::X] on the optional method. *)
Definition method_neq (m : option HTTPMethod) (x : HTTPMethod) : bool :=
  match m with
  | Some y => negb (HTTPMethod_eqb y x)
  | None => true
  end.

Record HTTPMessage := mkHTTPMessage {
  getMethod : option HTTPMethod;
  getURL : string;
  getStatusCode : Z;
  getStatusMessage : string
}.

(** A [std::unique_ptr<folly::IOBuf>]: absent when null or moved from. *)
Definition IOBuf := option string.

(** An established upstream session and the transaction it hands out. *)
Definition HTTPUpstreamSession := nat.
Definition HTTPTransaction := nat.

(** The socket status bits of the anonymous namespace. *)
Definition READS_SHUTDOWN : Z := 1.
Definition WRITES_SHUTDOWN : Z := 2.
Definition CLOSED : Z := Z.lor READS_SHUTDOWN WRITES_SHUTDOWN.

(** Bounds of the read buffer [getReadBuffer] asks [body_] for.  The
    function hands the socket a buffer and changes no field. *)
Definition kMinReadSize : Z := 1460.
Definition kMaxReadSize : Z := 4000.

(** Default of the [proxy_connect_timeout] flag, in milliseconds. *)
Definition FLAGS_proxy_connect_timeout : Z := 1000.

(** ** The log of calls made on the collaborators *)

Inductive Action :=
(* stats_ *)
| RecordRequest
(* downstream_ : the client-facing stream *)
| DSendHeaders (m : HTTPMessage)
| DSendBody (b : IOBuf)
| DSendEOM
| DSendAbort
| DPauseIngress
| DResumeIngress
(* connector_ *)
| Connect (address : string) (timeoutMs : Z)
(* txn_ : the upstream transaction *)
| USendHeaders (m : option HTTPMessage)
| USendBody (b : IOBuf)
| USendEOM
| USendAbort
| UPauseIngress
| UResumeIngress
(* upstreamSock_ : the raw upstream socket *)
| SockSetReadCB (attached : bool)
| SockReset.

(** ** The fields of the handler *)

(** [ProxyHandler.h] is not among the sources; the fields are those the
    member functions read and write, under the names used there.  [body],
    [chain] and [addr] are read by [onEOM] and [onServerEOM] and assigned
    nowhere in the file.  [deleted] counts the executions of [delete this],
    [checks] the calls of [checkForShutdown], and [log] holds the calls
    made on the collaborators so far, oldest first. *)
Record ProxyHandler := mkProxyHandler {
  request_ : option HTTPMessage;
  need_forward_ : bool;
  forward_url_ : string;
  http_status_ : Z;
  rsp_body_ : string;
  addr : string;
  body : IOBuf;
  chain : IOBuf;
  session_ : option HTTPUpstreamSession;
  txn_ : option HTTPTransaction;
  clientTerminated_ : bool;
  upstreamSock_ : bool;
  sockStatus_ : Z;
  downstreamIngressPaused_ : bool;
  upstreamEgressPaused_ : bool;
  deleted : nat;
  checks : nat;
  log : list Action
}.

(** Field assignments: every other field keeps its value. *)
Definition set_request_ v (h : ProxyHandler) : ProxyHandler :=
  mkProxyHandler v (need_forward_ h) (forward_url_ h) (http_status_ h)
    (rsp_body_ h) (addr h) (body h) (chain h) (session_ h) (txn_ h)
    (clientTerminated_ h) (upstreamSock_ h) (sockStatus_ h)
    (downstreamIngressPaused_ h) (upstreamEgressPaused_ h) (deleted h)
    (checks h) (log h).
Definition set_need_forward_ v (h : ProxyHandler) : ProxyHandler :=
  mkProxyHandler (request_ h) v (forward_url_ h) (http_status_ h)
    (rsp_body_ h) (addr h) (body h) (chain h) (session_ h) (txn_ h)
    (clientTerminated_ h) (upstreamSock_ h) (sockStatus_ h)
    (downstreamIngressPaused_ h) (upstreamEgressPaused_ h) (deleted h)
    (checks h) (log h).
Definition set_forward_url_ v (h : ProxyHandler) : ProxyHandler :=
  mkProxyHandler (request_ h) (need_forward_ h) v (http_status_ h)
    (rsp_body_ h) (addr h) (body h) (chain h) (session_ h) (txn_ h)
    (clientTerminated_ h) (upstreamSock_ h) (sockStatus_ h)
    (downstreamIngressPaused_ h) (upstreamEgressPaused_ h) (deleted h)
    (checks h) (log h).
Definition set_body v (h : ProxyHandler) : ProxyHandler :=
  mkProxyHandler (request_ h) (need_forward_ h) (forward_url_ h)
    (http_status_ h) (rsp_body_ h) (addr h) v (chain h) (session_ h)
    (txn_ h) (clientTerminated_ h) (upstreamSock_ h) (sockStatus_ h)
    (downstreamIngressPaused_ h) (upstreamEgressPaused_ h) (deleted h)
    (checks h) (log h).
Definition set_chain v (h : ProxyHandler) : ProxyHandler :=
  mkProxyHandler (request_ h) (need_forward_ h) (forward_url_ h)
    (http_status_ h) (rsp_body_ h) (addr h) (body h) v (session_ h) (txn_ h)
    (clientTerminated_ h) (upstreamSock_ h) (sockStatus_ h)
    (downstreamIngressPaused_ h) (upstreamEgressPaused_ h) (deleted h)
    (checks h) (log h).
Definition set_session_ v (h : ProxyHandler) : ProxyHandler :=
  mkProxyHandler (request_ h) (need_forward_ h) (forward_url_ h)
    (http_status_ h) (rsp_body_ h) (addr h) (body h) (chain h) v (txn_ h)
    (clientTerminated_ h) (upstreamSock_ h) (sockStatus_ h)
    (downstreamIngressPaused_ h) (upstreamEgressPaused_ h) (deleted h)
    (checks h) (log h).
Definition set_txn_ v (h : ProxyHandler) : ProxyHandler :=
  mkProxyHandler (request_ h) (need_forward_ h) (forward_url_ h)
    (http_status_ h) (rsp_body_ h) (addr h) (body h) (chain h) (session_ h)
    v (clientTerminated_ h) (upstreamSock_ h) (sockStatus_ h)
    (downstreamIngressPaused_ h) (upstreamEgressPaused_ h) (deleted h)
    (checks h) (log h).
Definition set_clientTerminated_ v (h : ProxyHandler) : ProxyHandler :=
  mkProxyHandler (request_ h) (need_forward_ h) (forward_url_ h)
    (http_status_ h) (rsp_body_ h) (addr h) (body h) (chain h) (session_ h)
    (txn_ h) v (upstreamSock_ h) (sockStatus_ h)
    (downstreamIngressPaused_ h) (upstreamEgressPaused_ h) (deleted h)
    (checks h) (log h).
Definition set_upstreamSock_ v (h : ProxyHandler) : ProxyHandler :=
  mkProxyHandler (request_ h) (need_forward_ h) (forward_url_ h)
    (http_status_ h) (rsp_body_ h) (addr h) (body h) (chain h) (session_ h)
    (txn_ h) (clientTerminated_ h) v (sockStatus_ h)
    (downstreamIngressPaused_ h) (upstreamEgressPaused_ h) (deleted h)
    (checks h) (log h).
Definition set_sockStatus_ v (h : ProxyHandler) : ProxyHandler :=
  mkProxyHandler (request_ h) (need_forward_ h) (forward_url_ h)
    (http_status_ h) (rsp_body_ h) (addr h) (body h) (chain h) (session_ h)
    (txn_ h) (clientTerminated_ h) (upstreamSock_ h) v
    (downstreamIngressPaused_ h) (upstreamEgressPaused_ h) (deleted h)
    (checks h) (log h).
Definition set_downstreamIngressPaused_ v (h : ProxyHandler) : ProxyHandler :=
  mkProxyHandler (request_ h) (need_forward_ h) (forward_url_ h)
    (http_status_ h) (rsp_body_ h) (addr h) (body h) (chain h) (session_ h)
    (txn_ h) (clientTerminated_ h) (upstreamSock_ h) (sockStatus_ h) v
    (upstreamEgressPaused_ h) (deleted h) (checks h) (log h).
Definition set_upstreamEgressPaused_ v (h : ProxyHandler) : ProxyHandler :=
  mkProxyHandler (request_ h) (need_forward_ h) (forward_url_ h)
    (http_status_ h) (rsp_body_ h) (addr h) (body h) (chain h) (session_ h)
    (txn_ h) (clientTerminated_ h) (upstreamSock_ h) (sockStatus_ h)
    (downstreamIngressPaused_ h) v (deleted h) (checks h) (log h).
Definition set_deleted v (h : ProxyHandler) : ProxyHandler :=
  mkProxyHandler (request_ h) (need_forward_ h) (forward_url_ h)
    (http_status_ h) (rsp_body_ h) (addr h) (body h) (chain h) (session_ h)
    (txn_ h) (clientTerminated_ h) (upstreamSock_ h) (sockStatus_ h)
    (downstreamIngressPaused_ h) (upstreamEgressPaused_ h) v (checks h)
    (log h).
Definition set_checks v (h : ProxyHandler) : ProxyHandler :=
  mkProxyHandler (request_ h) (need_forward_ h) (forward_url_ h)
    (http_status_ h) (rsp_body_ h) (addr h) (body h) (chain h) (session_ h)
    (txn_ h) (clientTerminated_ h) (upstreamSock_ h) (sockStatus_ h)
    (downstreamIngressPaused_ h) (upstreamEgressPaused_ h) (deleted h) v
    (log h).
Definition set_log v (h : ProxyHandler) : ProxyHandler :=
  mkProxyHandler (request_ h) (need_forward_ h) (forward_url_ h)
    (http_status_ h) (rsp_body_ h) (addr h) (body h) (chain h) (session_ h)
    (txn_ h) (clientTerminated_ h) (upstreamSock_ h) (sockStatus_ h)
    (downstreamIngressPaused_ h) (upstreamEgressPaused_ h) (deleted h)
    (checks h) v.

(** One call on a collaborator. *)
Definition call (a : Action) (h : ProxyHandler) : ProxyHandler :=
  set_log (log h ++ [a]) h.

Definition calls (l : list Action) (h : ProxyHandler) : ProxyHandler :=
  set_log (log h ++ l) h.

(** A pointer used as a condition: [if (txn_)]. *)
Definition non_null {A : Type} (p : option A) : bool :=
  match p with Some _ => true | None => false end.

(** [uint8_t] arithmetic: [sockStatus_ |= bit]. *)
Definition u8 (z : Z) : Z := z mod 256.


(** ** Collaborators whose code is outside the sources *)

(** Modelled from the spec: [ResponseBuilder] (proxygen/httpserver) is not
    among the sources.  The spec has the handler "synthesize and send" an
    immediate response made of a status line, a body and the end of the
    message "directly to the client"; the builder is the chain
    [status(code, reason)], optional [body(b)], then [send()] or
    [sendWithEOM()], which puts the headers, the body when one was given,
    and the end-of-message when asked for, on the downstream stream. *)
Record ResponseBuilder := mkResponseBuilder {
  rb_headers : HTTPMessage;
  rb_body : IOBuf
}.

Definition status (code : Z) (reason : string) : ResponseBuilder :=
  mkResponseBuilder (mkHTTPMessage None EmptyString code reason) None.

Definition with_body (b : string) (rb : ResponseBuilder) : ResponseBuilder :=
  mkResponseBuilder (rb_headers rb) (Some b).

Definition response_calls (eom : bool) (rb : ResponseBuilder) : list Action :=
  [DSendHeaders (rb_headers rb)]
  ++ match rb_body rb with Some _ => [DSendBody (rb_body rb)] | None => [] end
  ++ (if eom then [DSendEOM] else []).

Definition send (rb : ResponseBuilder) : ProxyHandler -> ProxyHandler :=
  calls (response_calls false rb).

Definition sendWithEOM (rb : ResponseBuilder) : ProxyHandler -> ProxyHandler :=
  calls (response_calls true rb).

(** Modelled from the spec: [RequestHander::DoRequest] is declared in
    BusiHandler.h and defined nowhere in the sources.  The spec has the
    forwarding decision return, synchronously, whether to forward and to
    which target; the verdict is the pair of values [ServiceRequest] reads
    back through the two getters, and it is an input of [onEOM]. *)
Record RequestHander := mkRequestHander {
  GetForwardFlag : bool;
  GetForwardUrl : string
}.

(** Modelled from the spec: the connector is not among the sources.  The
    spec has [connect] yield its result asynchronously, a session on
    success and an exception on failure: the attempt is left pending and
    the callback runs from a later turn of the event loop.  The source
    reads [txn_] right after the call, so the case of a callback run before
    [connect] returns is covered as well. *)
Inductive ConnectOutcome :=
| ConnectPending
| ConnectedAtOnce (session : HTTPUpstreamSession)
| FailedAtOnce.

(** [session->newTransaction(&serverHandler_)]. *)
Definition newTransaction (session : HTTPUpstreamSession) : HTTPTransaction :=
  session.

(** ** The member functions *)

Definition checkForShutdown (h : ProxyHandler) : ProxyHandler * bool :=
  let h := set_checks (S (checks h)) h in
  if clientTerminated_ h && negb (non_null (txn_ h)) &&
     (negb (upstreamSock_ h) ||
      (Z.eqb (sockStatus_ h) CLOSED && negb (upstreamEgressPaused_ h)))
  then (set_deleted (S (deleted h)) h, true)
  else (h, false).

Definition abortDownstream (h : ProxyHandler) : ProxyHandler :=
  if negb (clientTerminated_ h) then call DSendAbort h else h.

Definition onRequest (headers : HTTPMessage) (h : ProxyHandler) : ProxyHandler :=
  let h := call RecordRequest h in
  let h := set_request_ (Some headers) h in
  if method_neq (getMethod headers) GET && method_neq (getMethod headers) POST
  then sendWithEOM (with_body (rsp_body_ h) (status (http_status_ h) "Bad Gateway")) h
  else h.

Definition onBody (b : IOBuf) (h : ProxyHandler) : ProxyHandler := h.

(** A callback that dereferences a null pointer, or goes on reading its
    members after [delete this], does not complete: it is rendered as
    [None], like a failed [CHECK]. *)

(** [request_->getURL()] dereferences [request_]. *)
Definition ServiceRequest (request_handler : RequestHander) (h : ProxyHandler)
  : option ProxyHandler :=
  match request_ h with
  | None => None
  | Some _ =>
      let h := set_need_forward_ (GetForwardFlag request_handler) h in
      Some (set_forward_url_ (GetForwardUrl request_handler) h)
  end.

Definition ServiceResponse (h : ProxyHandler) : ProxyHandler := h.

(** [request_->getURL()] and [*request_] dereference [request_]. *)
Definition connectSuccess (session : HTTPUpstreamSession) (h : ProxyHandler)
  : option ProxyHandler :=
  let h := set_session_ (Some session) h in
  let h := set_txn_ (Some (newTransaction session)) h in
  match request_ h with
  | None => None
  | Some m =>
      let h := call (USendHeaders (Some m)) h in
      Some (call DResumeIngress h)
  end.

Definition connectError (h : ProxyHandler) : ProxyHandler :=
  if negb (clientTerminated_ h)
  then sendWithEOM (status 503 "Bad Gateway") h
  else fst (checkForShutdown (abortDownstream h)).

Definition connector_connect (o : ConnectOutcome) (h : ProxyHandler)
  : option ProxyHandler :=
  let h := call (Connect (addr h) FLAGS_proxy_connect_timeout) h in
  match o with
  | ConnectPending => Some h
  | ConnectedAtOnce session => connectSuccess session h
  | FailedAtOnce => Some (connectError h)
  end.

(** Whether the handler was deleted between two points of a callback. *)
Definition gone (before after : ProxyHandler) : bool :=
  negb (Nat.eqb (deleted after) (deleted before)).

(** After [connector_.connect] the function reads [txn_]: when the
    connector has run [connectError] on the spot and the check in it has
    deleted the handler, this is a read of a deleted object. *)
Definition onEOM (request_handler : RequestHander) (o : ConnectOutcome)
  (h : ProxyHandler) : option ProxyHandler :=
  match ServiceRequest request_handler h with
  | None => None
  | Some h =>
      if negb (need_forward_ h)
      then Some (sendWithEOM
                   (with_body (rsp_body_ h)
                      (status (http_status_ h) "Bad Gateway")) h)
      else
        let h := call DPauseIngress h in
        let h := call DPauseIngress h in
        match connector_connect o h with
        | None => None
        | Some h' =>
            if gone h h' then None
            else
              let h := if non_null (txn_ h')
                       then set_body None (call (USendBody (body h')) h')
                       else h' in
              Some (if non_null (txn_ h) then call USendEOM h else h)
        end
  end.

(** The two callbacks that start with [CHECK(!clientTerminated_)]: a failed
    check aborts the process, rendered as [None]. *)
Definition onServerHeadersComplete (msg : HTTPMessage) (h : ProxyHandler)
  : option ProxyHandler :=
  if clientTerminated_ h then None else Some (call (DSendHeaders msg) h).

Definition onServerBody (c : IOBuf) (h : ProxyHandler) : option ProxyHandler :=
  if clientTerminated_ h then None else Some (call (DSendBody c) h).

(** Modelled from the spec: [DoDownloadResponse] is called by
    [onServerEOM] and defined nowhere in the sources.  The spec has the
    end of the upstream message "forward whatever was buffered"; the
    function is taken as the buffer it leaves in [chain]. *)
Definition DoDownloadResponse (processed : IOBuf) (h : ProxyHandler)
  : ProxyHandler :=
  set_chain processed h.

Definition onServerEOM (processed : IOBuf) (h : ProxyHandler) : ProxyHandler :=
  let h := DoDownloadResponse processed h in
  let h := set_chain None (call (DSendBody (chain h)) h) in
  if negb (clientTerminated_ h) then call DSendEOM h else h.

Definition detachServerTransaction (h : ProxyHandler) : ProxyHandler :=
  fst (checkForShutdown (set_txn_ None h)).

Definition onServerError (h : ProxyHandler) : ProxyHandler :=
  abortDownstream h.

Definition onServerEgressPaused (h : ProxyHandler) : ProxyHandler :=
  if negb (clientTerminated_ h) then call DPauseIngress h else h.

Definition onServerEgressResumed (h : ProxyHandler) : ProxyHandler :=
  if negb (clientTerminated_ h) then call DResumeIngress h else h.

Definition requestComplete (h : ProxyHandler) : ProxyHandler :=
  fst (checkForShutdown (set_clientTerminated_ true h)).

Definition onError (h : ProxyHandler) : ProxyHandler :=
  let h := set_clientTerminated_ true h in
  let h :=
    if non_null (txn_ h) then call USendAbort h
    else if upstreamSock_ h then set_upstreamSock_ false (call SockReset h)
    else h in
  fst (checkForShutdown h).

Definition onEgressPaused (h : ProxyHandler) : ProxyHandler :=
  if non_null (txn_ h) then call UPauseIngress h
  else if upstreamSock_ h then call (SockSetReadCB false) h
  else h.

Definition onEgressResumed (h : ProxyHandler) : ProxyHandler :=
  if non_null (txn_ h) then call UResumeIngress h
  else if upstreamSock_ h then call (SockSetReadCB true) h
  else h.

(** The raw-socket callbacks.  [upstreamSock_.reset()] on an empty pointer
    does nothing; [upstreamSock_->setReadCB(this)] in [connectSuccess()]
    dereferences it. *)
Definition upstreamSock_reset (h : ProxyHandler) : ProxyHandler :=
  if upstreamSock_ h then set_upstreamSock_ false (call SockReset h) else h.

Definition connectSuccess_sock (h : ProxyHandler) : option ProxyHandler :=
  let h := send (status 200 "OK") h in
  if upstreamSock_ h
  then let h := call (SockSetReadCB true) h in
       Some (call DResumeIngress h)
  else None.

Definition connectErr (h : ProxyHandler) : ProxyHandler := connectError h.

Definition readDataAvailable (data : string) (h : ProxyHandler) : ProxyHandler :=
  call (DSendBody (Some data)) h.

Definition readEOF (processed : IOBuf) (h : ProxyHandler) : ProxyHandler :=
  let h := set_sockStatus_ (u8 (Z.lor (sockStatus_ h) READS_SHUTDOWN)) h in
  onServerEOM processed h.

Definition readErr (h : ProxyHandler) : ProxyHandler :=
  let h := abortDownstream h in
  let h := upstreamSock_reset h in
  fst (checkForShutdown h).

Definition writeSuccess (h : ProxyHandler) : ProxyHandler :=
  let h := set_upstreamEgressPaused_ false h in
  let h :=
    if downstreamIngressPaused_ h
    then onServerEgressResumed (set_downstreamIngressPaused_ false h)
    else h in
  fst (checkForShutdown h).

Definition writeErr (h : ProxyHandler) : ProxyHandler :=
  let h := set_upstreamEgressPaused_ false h in
  let h := abortDownstream h in
  let h := upstreamSock_reset h in
  fst (checkForShutdown h).

(** ** Callbacks as events *)

(** One constructor per callback the collaborators can run on the handler,
    with the data the callback receives from outside. *)
Inductive Event :=
(* from the downstream stream *)
| OnRequest (headers : HTTPMessage)
| OnBody (b : IOBuf)
| OnEOM (request_handler : RequestHander) (o : ConnectOutcome)
| RequestComplete
| OnError
| OnEgressPaused
| OnEgressResumed
(* from the connector, for an attempt left pending *)
| ConnectSuccess (session : HTTPUpstreamSession)
| ConnectError
(* from the upstream transaction *)
| OnServerHeadersComplete (msg : HTTPMessage)
| OnServerBody (c : IOBuf)
| OnServerEOM (processed : IOBuf)
| DetachServerTransaction
| OnServerError
| OnServerEgressPaused
| OnServerEgressResumed
(* from the raw upstream socket *)
| SockConnectSuccess
| ConnectErr
| ReadDataAvailable (data : string)
| ReadEOF (processed : IOBuf)
| ReadErr
| WriteSuccess
| WriteErr.

Definition deliver (e : Event) (h : ProxyHandler) : option ProxyHandler :=
  match e with
  | OnRequest headers => Some (onRequest headers h)
  | OnBody b => Some (onBody b h)
  | OnEOM rh o => onEOM rh o h
  | RequestComplete => Some (requestComplete h)
  | OnError => Some (onError h)
  | OnEgressPaused => Some (onEgressPaused h)
  | OnEgressResumed => Some (onEgressResumed h)
  | ConnectSuccess session => connectSuccess session h
  | ConnectError => Some (connectError h)
  | OnServerHeadersComplete msg => onServerHeadersComplete msg h
  | OnServerBody c => onServerBody c h
  | OnServerEOM processed => Some (onServerEOM processed h)
  | DetachServerTransaction => Some (detachServerTransaction h)
  | OnServerError => Some (onServerError h)
  | OnServerEgressPaused => Some (onServerEgressPaused h)
  | OnServerEgressResumed => Some (onServerEgressResumed h)
  | SockConnectSuccess => connectSuccess_sock h
  | ConnectErr => Some (connectErr h)
  | ReadDataAvailable data => Some (readDataAvailable data h)
  | ReadEOF processed => Some (readEOF processed h)
  | ReadErr => Some (readErr h)
  | WriteSuccess => Some (writeSuccess h)
  | WriteErr => Some (writeErr h)
  end.

(** Callbacks delivered one after the other, whatever the state. *)
Fixpoint run (evs : list Event) (h : ProxyHandler) : option ProxyHandler :=
  match evs with
  | [] => Some h
  | e :: evs =>
      match deliver e h with
      | Some h' => run evs h'
      | None => None
      end
  end.

(** Callbacks delivered as long as the object exists: the collaborators
    hold no pointer to a handler that has deleted itself. *)
Fixpoint serve (evs : list Event) (h : ProxyHandler) : option ProxyHandler :=
  match evs with
  | [] => Some h
  | e :: evs =>
      if Nat.eqb (deleted h) 0 then
        match deliver e h with
        | Some h' => serve evs h'
        | None => None
        end
      else Some h
  end.

(** Modelled from the spec: the member initialisers of [ProxyHandler.h] are
    not among the sources.  A handler starts with no request, no session,
    no transaction and no raw socket, [clientTerminated] and both pause
    flags clear and a zero socket status.  The response status, the
    response body and the connect address are assigned nowhere in the
    sources and are parameters. *)
Definition newProxyHandler (http_status : Z) (rsp_body address : string)
  : ProxyHandler :=
  mkProxyHandler None false EmptyString http_status rsp_body address
    None None None None false false 0 false false 0%nat 0%nat [].

(** ** Reading the log *)

Definition is_upstream (a : Action) : bool :=
  match a with
  | Connect _ _ | USendHeaders _ | USendBody _ | USendEOM | USendAbort
  | UPauseIngress | UResumeIngress | SockSetReadCB _ | SockReset => true
  | _ => false
  end.

Definition is_connect (a : Action) : bool :=
  match a with Connect _ _ => true | _ => false end.

Definition is_DSendEOM (a : Action) : bool :=
  match a with DSendEOM => true | _ => false end.

Definition is_DSendAbort (a : Action) : bool :=
  match a with DSendAbort => true | _ => false end.

Definition is_DSendHeaders (a : Action) : bool :=
  match a with DSendHeaders _ => true | _ => false end.

Definition count (p : Action -> bool) (l : list Action) : nat :=
  List.length (filter p l).

(** The condition of the shutdown check, in the words of the data model:
    the client is done, no transaction is attached, and the raw socket is
    absent or fully closed and not write-paused. *)
Definition terminal (h : ProxyHandler) : Prop :=
  clientTerminated_ h = true /\
  txn_ h = None /\
  (upstreamSock_ h = false \/
   (sockStatus_ h = CLOSED /\ upstreamEgressPaused_ h = false)).

(** Callbacks of the client's request, which the stream stops delivering
    once it has reported completion or an error. *)
Definition client_request_event (e : Event) : bool :=
  match e with
  | OnRequest _ | OnBody _ | OnEOM _ _ => true
  | _ => false
  end.

(** Callbacks that end with a call of [checkForShutdown]. *)
Definition ends_with_check (e : Event) : bool :=
  match e with
  | RequestComplete | OnError | DetachServerTransaction | ConnectError
  | ConnectErr | ReadErr | WriteSuccess | WriteErr => true
  | _ => false
  end.

(** The response [onRequest] and [onEOM] build: the handler's status with
    the reason "Bad Gateway", the handler's body, the end-of-message. *)
Definition immediate_response (h : ProxyHandler) : list Action :=
  [DSendHeaders (mkHTTPMessage None EmptyString (http_status_ h) "Bad Gateway");
   DSendBody (Some (rsp_body_ h));
   DSendEOM].

Definition accepted (m : HTTPMessage) : bool :=
  negb (method_neq (getMethod m) GET && method_neq (getMethod m) POST).

(** Projections of an outcome used in the examples. *)
Definition upstream_calls (r : option ProxyHandler) : option (list Action) :=
  option_map (fun h => filter is_upstream (log h)) r.

Definition downstream_responses (r : option ProxyHandler) : option nat :=
  option_map (fun h => count is_DSendHeaders (log h)) r.

(** A fresh handler and the requests and verdicts of the scenarios. *)
Definition get_x : HTTPMessage := mkHTTPMessage (Some GET) "/x" 0 EmptyString.
Definition delete_x : HTTPMessage := mkHTTPMessage (Some DELETE) "/x" 0 EmptyString.
Definition forward_it : RequestHander := mkRequestHander true "10.0.0.1:80".
Definition decline_it : RequestHander := mkRequestHander false EmptyString.
Definition fresh : ProxyHandler := newProxyHandler 502 "no route" "10.0.0.1:80".

(** The handler a run leaves behind, and the handler of a GET request
    that has been forwarded and whose transaction is attached. *)
Definition live (r : option ProxyHandler) : ProxyHandler :=
  match r with Some h => h | None => fresh end.

Definition relaying : ProxyHandler :=
  live (run [OnRequest get_x; OnEOM forward_it ConnectPending;
             ConnectSuccess 7%nat] fresh).


(** The two callbacks guarded by [CHECK(!clientTerminated_)]. *)
Definition is_checked_callback (e : Event) : bool :=
  match e with
  | OnServerHeadersComplete _ | OnServerBody _ => true
  | _ => false
  end.

Definition is_onRequest (e : Event) : bool :=
  match e with OnRequest _ => true | _ => false end.

(** A handler without a raw socket that exists exactly as long as the
    client has not terminated or a transaction is attached. *)
Definition tidy (h : ProxyHandler) : Prop :=
  upstreamSock_ h = false /\
  ((deleted h = 0%nat /\ (clientTerminated_ h = true -> txn_ h <> None)) \/
   (deleted h = 1%nat /\ clientTerminated_ h = true /\ txn_ h = None)).

(** The fields no callback reads back: the decision's flag and target
    between two [onEOM]s, and the session wrapper. *)
Definition scrub (h : ProxyHandler) : ProxyHandler :=
  set_session_ None (set_forward_url_ EmptyString (set_need_forward_ false h)).

(** The response [connectSuccess()] of the raw socket sends. *)
Definition ok_200 : HTTPMessage := mkHTTPMessage None EmptyString 200 "OK".

(** An end of request on which the decision says forward. *)
Definition is_forward_EOM (e : Event) : bool :=
  match e with
  | OnEOM request_handler _ => GetForwardFlag request_handler
  | _ => false
  end.

(** * Properties *)

(** ** The shutdown check *)

(** Case analysis shared by the lemmas that range over every callback:
    the flags and pointers the callbacks branch on are made concrete
    first, then the callback is evaluated and what remains of its
    conditions is split. *)
Ltac evaluate :=
  cbv beta iota zeta delta -[app In Z.eqb Nat.eqb Nat.add CLOSED u8 Z.lor].

Ltac split_conditions :=
  repeat match goal with
         | |- context [Z.eqb ?a ?b] => destruct (Z.eqb_spec a b); evaluate
         | |- context [Nat.eqb ?a ?b] =>
             first [ constr_eq a b; rewrite (Nat.eqb_refl a)
                   | rewrite (proj2 (Nat.eqb_neq a b)) by lia ];
             evaluate
         | |- context [match ?x with Some _ => _ | None => _ end] =>
             is_var x; destruct x; evaluate
         | |- context [if ?b then _ else _] => destruct b eqn:?; evaluate
         end.

Ltac every_callback h e :=
  destruct h as [rq nf fu hs rb ad bd ch se tx ct us ss dp up dl ck lg];
  destruct rq as [rq|], ct, tx as [tx|], us, dp, up;
  destruct e as [m|b|[fw url] [|s|]| | | | | | | | | | | | | | | | | | | | ];
  try destruct fw;
  evaluate; try discriminate; split_conditions.

Lemma CLOSED_has_both_bits :
  Z.land CLOSED READS_SHUTDOWN = READS_SHUTDOWN /\
  Z.land CLOSED WRITES_SHUTDOWN = WRITES_SHUTDOWN /\
  CLOSED = 3.
Proof. repeat split. Qed.

Lemma checkForShutdown_true_iff (h : ProxyHandler) :
  terminal h <-> snd (checkForShutdown h) = true.
Proof.
  destruct h as [rq nf fu hs rb ad bd ch se tx ct us ss dp up dl ck lg].
  unfold terminal, checkForShutdown. cbn.
  destruct ct, tx, us, up; cbn; try destruct (Z.eqb_spec ss 3); cbn;
    intuition congruence.
Qed.

Lemma checkForShutdown_fst (h : ProxyHandler) :
  fst (checkForShutdown h) =
  if snd (checkForShutdown h)
  then set_deleted (S (deleted h)) (set_checks (S (checks h)) h)
  else set_checks (S (checks h)) h.
Proof.
  unfold checkForShutdown. cbv zeta.
  destruct (_ && _ && _); reflexivity.
Qed.

(** The fields the condition reads are left alone by the check. *)
Lemma terminal_after_check (h : ProxyHandler) :
  terminal (fst (checkForShutdown h)) <-> terminal h.
Proof.
  rewrite checkForShutdown_fst.
  destruct (snd (checkForShutdown h)); unfold terminal; cbn; tauto.
Qed.

Lemma check_destroys_at_most_once (g : ProxyHandler) :
  deleted (fst (checkForShutdown g)) = deleted g \/
  (deleted (fst (checkForShutdown g)) = S (deleted g) /\
   terminal (fst (checkForShutdown g))).
Proof.
  destruct (snd (checkForShutdown g)) eqn:E.
  - right. split.
    + rewrite checkForShutdown_fst, E. reflexivity.
    + apply terminal_after_check, checkForShutdown_true_iff, E.
  - left. rewrite checkForShutdown_fst, E. reflexivity.
Qed.

(** Every callback executes [delete this] at most once, through the check,
    and leaves the fields in a state that satisfies the check's condition
    when it does. *)
Lemma callback_destroys_at_most_once (e : Event) (h h' : ProxyHandler) :
  deliver e h = Some h' ->
  deleted h' = deleted h \/ (deleted h' = S (deleted h) /\ terminal h').
Proof.
  every_callback h e; intros [= <-]; try (left; reflexivity).
  all: right; split; [reflexivity|]; repeat split; auto.
Qed.

(** The callbacks that end with the check destroy the handler exactly
    when they leave it in a state that satisfies the condition. *)
Lemma checking_callback_destroys_iff (e : Event) (h h' : ProxyHandler) :
  ends_with_check e = true ->
  deliver e h = Some h' ->
  (terminal h' <-> deleted h' = S (deleted h)).
Proof.
  every_callback h e; try discriminate; intros _ [= <-];
    unfold terminal; cbn; intuition (congruence || lia).
Qed.

Lemma serve_destroyed (evs : list Event) (h : ProxyHandler) :
  deleted h <> 0%nat -> serve evs h = Some h.
Proof.
  intros D. destruct evs as [|e evs]; [reflexivity|].
  cbn [serve]. destruct (Nat.eqb_spec (deleted h) 0); [contradiction|reflexivity].
Qed.

Lemma serve_destroys_at_most_once (evs : list Event) :
  forall h h', deleted h = 0%nat -> serve evs h = Some h' ->
  deleted h' = 0%nat \/ (deleted h' = 1%nat /\ terminal h').
Proof.
  induction evs as [|e evs IH]; intros h h' D R.
  - injection R as <-. now left.
  - cbn [serve] in R. rewrite D in R. cbn in R.
    destruct (deliver e h) as [g|] eqn:E; [|discriminate].
    destruct (callback_destroys_at_most_once e h E) as [D'|[D' T]].
    + apply (IH g h'); congruence.
    + rewrite serve_destroyed in R by congruence.
      injection R as <-. right. split; congruence.
Qed.

(** ** What reaches the client after it has terminated *)

Lemma log_after_check (g : ProxyHandler) :
  log (fst (checkForShutdown g)) = log g.
Proof. rewrite checkForShutdown_fst. destruct (snd _); reflexivity. Qed.

Lemma clientTerminated_after_check (g : ProxyHandler) :
  clientTerminated_ (fst (checkForShutdown g)) = clientTerminated_ g.
Proof. rewrite checkForShutdown_fst. destruct (snd _); reflexivity. Qed.

Lemma txn_after_check (g : ProxyHandler) :
  txn_ (fst (checkForShutdown g)) = txn_ g.
Proof. rewrite checkForShutdown_fst. destruct (snd _); reflexivity. Qed.

Lemma upstreamSock_after_check (g : ProxyHandler) :
  upstreamSock_ (fst (checkForShutdown g)) = upstreamSock_ g.
Proof. rewrite checkForShutdown_fst. destruct (snd _); reflexivity. Qed.

Ltac log_suffix :=
  rewrite <- ?app_assoc;
  first [ eexists; split; [reflexivity|]
        | exists []; split; [symmetry; apply app_nil_r|] ].

(** [clientTerminated_] is only ever assigned [true]. *)
Lemma clientTerminated_stays (e : Event) (h h' : ProxyHandler) :
  deliver e h = Some h' ->
  clientTerminated_ h = true -> clientTerminated_ h' = true.
Proof.
  every_callback h e; intros [= <-]; auto.
Qed.







(** ** Upstream connect failure *)

(** C6 (as amended).  When the connector reports a failure and the client
    has not terminated, exactly one error response (503, reason
    "Bad Gateway", no body, end-of-message) goes to the client and the
    shutdown check is not run.  When the client has terminated, no
    response and no abort is sent ([abortDownstream] is called and, behind
    the same flag, sends nothing), and the shutdown check is run, once,
    destroying the handler exactly when its condition holds. *)
Theorem connectError_answers_or_checks (h : ProxyHandler) :
  log (connectError h) =
    log h ++ (if clientTerminated_ h then []
              else [DSendHeaders (mkHTTPMessage None EmptyString 503 "Bad Gateway");
                    DSendEOM]) /\
  checks (connectError h) =
    (checks h + if clientTerminated_ h then 1 else 0)%nat /\
  deleted (connectError h) =
    (deleted h + if clientTerminated_ h && snd (checkForShutdown h)
                 then 1 else 0)%nat /\
  clientTerminated_ (connectError h) = clientTerminated_ h /\
  set_log (log h)
    (set_checks (checks h) (set_deleted (deleted h) (connectError h))) = h.
Proof.
  destruct h as [rq nf fu hs rb ad bd ch se tx ct us ss dp up dl ck lg].
  destruct ct, tx, us, up; evaluate; split_conditions;
    rewrite ?app_nil_r; repeat split; try reflexivity; lia.
Qed.

(** C6 as stated fails: GET /x, a forward verdict, then the connector's
    failure while the client is still there.  The client gets the 503 and
    the shutdown check is not run. *)
Lemma connect_failure_answered_without_check :
  option_map (@checks)
    (run [OnRequest get_x; OnEOM forward_it ConnectPending; ConnectError] fresh)
  = Some 0%nat /\
  option_map (fun h => filter (fun a => negb (is_upstream a)) (log h))
    (run [OnRequest get_x; OnEOM forward_it ConnectPending; ConnectError] fresh)
  = Some [RecordRequest; DPauseIngress; DPauseIngress;
          DSendHeaders (mkHTTPMessage None EmptyString 503 "Bad Gateway");
          DSendEOM] /\
  option_map (@checks)
    (run [OnRequest get_x; OnEOM forward_it FailedAtOnce] fresh)
  = Some 0%nat.
Proof. vm_compute. repeat split. Qed.

(** ** Client error or abort *)

(** No callback creates the raw socket: a handler that starts without one
    never holds one, and so never holds a transaction and a socket at
    once. *)
Lemma callback_keeps_no_socket (e : Event) (h h' : ProxyHandler) :
  deliver e h = Some h' -> upstreamSock_ h = false -> upstreamSock_ h' = false.
Proof.
  every_callback h e; intros [= <-]; auto.
Qed.

Lemma raw_socket_never_created (evs : list Event) :
  forall h h', upstreamSock_ h = false -> run evs h = Some h' ->
  upstreamSock_ h' = false.
Proof.
  induction evs as [|e evs IH]; intros h h' U R.
  - injection R as <-. exact U.
  - cbn [run] in R. destruct (deliver e h) as [g|] eqn:E; [|discriminate].
    exact (IH g h' (callback_keeps_no_socket e h E U) R).
Qed.




(** ** Flow control *)

(** C9.  When the client signals egress-paused the handler pauses upstream
    ingress: through the transaction when one is attached, otherwise by
    detaching the read callback of the raw socket when there is one.  The
    egress-resumed callback undoes it by the same route.  Neither touches
    anything but the collaborator it calls. *)
Theorem client_egress_pauses_upstream_ingress (h : ProxyHandler) :
  log (onEgressPaused h) =
    log h ++ match txn_ h with
             | Some _ => [UPauseIngress]
             | None => if upstreamSock_ h then [SockSetReadCB false] else []
             end /\
  log (onEgressResumed h) =
    log h ++ match txn_ h with
             | Some _ => [UResumeIngress]
             | None => if upstreamSock_ h then [SockSetReadCB true] else []
             end /\
  set_log (log h) (onEgressPaused h) = h /\
  set_log (log h) (onEgressResumed h) = h.
Proof.
  destruct h as [rq nf fu hs rb ad bd ch se tx ct us ss dp up dl ck lg].
  unfold onEgressPaused, onEgressResumed.
  destruct tx, us; cbn; rewrite ?app_nil_r; repeat split.
Qed.

(** No callback sets either pause flag: [writeSuccess] and [writeErr]
    clear them, nothing assigns [true]. *)
Lemma callback_never_sets_pause_flags (e : Event) (h h' : ProxyHandler) :
  deliver e h = Some h' ->
  (downstreamIngressPaused_ h = false -> downstreamIngressPaused_ h' = false) /\
  (upstreamEgressPaused_ h = false -> upstreamEgressPaused_ h' = false).
Proof.
  every_callback h e; intros [= <-]; auto.
Qed.

(** The client's body and end-of-message are sent upstream by the request
    callbacks and by nothing else. *)
Lemma callback_sends_no_client_data (e : Event) (h h' : ProxyHandler) :
  client_request_event e = false ->
  deliver e h = Some h' ->
  exists l, log h' = log h ++ l /\
            ~ In USendEOM l /\ (forall b, ~ In (USendBody b) l).
Proof.
  every_callback h e; try discriminate; intros _ [= <-]; log_suffix.
  all: cbn [In app]; split; [|intros b0];
    intuition (discriminate || congruence).
Qed.

Lemma run_sends_no_client_data (evs : list Event) :
  forall h h',
  forallb (fun e => negb (client_request_event e)) evs = true ->
  run evs h = Some h' ->
  exists l, log h' = log h ++ l /\
            ~ In USendEOM l /\ (forall b, ~ In (USendBody b) l).
Proof.
  induction evs as [|e evs IH]; intros h h' A R.
  - injection R as <-. exists []. rewrite app_nil_r. cbn. tauto.
  - cbn [forallb] in A. apply andb_true_iff in A as [A1 A2].
    apply negb_true_iff in A1.
    cbn [run] in R. destruct (deliver e h) as [g|] eqn:E; [|discriminate].
    destruct (callback_sends_no_client_data e h A1 E) as (l1 & L1 & E1 & B1).
    destruct (IH g h' A2 R) as (l2 & L2 & E2 & B2).
    exists (l1 ++ l2). rewrite L2, L1, app_assoc. split; [reflexivity|].
    split; [|intros b]; rewrite in_app_iff; intros [I|I];
      solve [ exact (E1 I) | exact (E2 I) | exact (B1 b I) | exact (B2 b I) ].
Qed.

(** C8 (as amended).  When the upstream transaction signals egress-paused
    and the client has not terminated, the handler pauses downstream
    ingress, without recording it in [downstreamIngressPaused_]; when it
    signals egress-resumed and the client has not terminated, the handler
    resumes downstream ingress, whatever the flag.  A write success on
    the raw socket clears [upstreamEgressPaused_] and takes the
    egress-resumed path if [downstreamIngressPaused_] was set, clearing
    it, then runs the shutdown check.  From the pause on, as long as the
    paused stream delivers no request callback, nothing of the client's
    body and no end-of-message is sent upstream. *)
Theorem upstream_egress_gates_downstream_ingress
  (evs : list Event) (h h' : ProxyHandler) :
  forallb (fun e => negb (client_request_event e)) evs = true ->
  run evs (onServerEgressPaused h) = Some h' ->
  log (onServerEgressPaused h) =
    log h ++ (if clientTerminated_ h then [] else [DPauseIngress]) /\
  set_log (log h) (onServerEgressPaused h) = h /\
  log (onServerEgressResumed h) =
    log h ++ (if clientTerminated_ h then [] else [DResumeIngress]) /\
  set_log (log h) (onServerEgressResumed h) = h /\
  upstreamEgressPaused_ (writeSuccess h) = false /\
  downstreamIngressPaused_ (writeSuccess h) = false /\
  log (writeSuccess h) =
    log h ++ (if downstreamIngressPaused_ h && negb (clientTerminated_ h)
              then [DResumeIngress] else []) /\
  checks (writeSuccess h) = S (checks h) /\
  (exists l, log h' = log (onServerEgressPaused h) ++ l /\
             ~ In USendEOM l /\ (forall b, ~ In (USendBody b) l)).
Proof.
  intros A R.
  pose proof (run_sends_no_client_data evs (onServerEgressPaused h) A R) as N.
  clear A R. revert N.
  destruct h as [rq nf fu hs rb ad bd ch se tx ct us ss dp up dl ck lg].
  destruct ct, dp, tx, us, up; evaluate; split_conditions;
    rewrite ?app_nil_r; intros N; repeat split; exact N.
Qed.

Lemma upstream_egress_gates_downstream_ingress_witness :
  forallb (fun e => negb (client_request_event e))
    [OnServerBody (Some "ok"); OnEgressPaused; OnServerEgressResumed] = true /\
  run [OnServerBody (Some "ok"); OnEgressPaused; OnServerEgressResumed]
    (onServerEgressPaused relaying)
  = Some (calls [DPauseIngress; DSendBody (Some "ok"); UPauseIngress;
                 DResumeIngress] relaying) /\
  log (onServerEgressPaused relaying) = log relaying ++ [DPauseIngress].
Proof.
  split; [reflexivity|]. split; [vm_compute; reflexivity|].
  apply (@upstream_egress_gates_downstream_ingress
           [OnServerBody (Some "ok"); OnEgressPaused; OnServerEgressResumed]
           relaying
           (calls [DPauseIngress; DSendBody (Some "ok"); UPauseIngress;
                   DResumeIngress] relaying));
    vm_compute; reflexivity.
Defined.

(** C8 as stated fails: with a transaction attached, the egress-paused
    callback pauses the client and leaves [downstreamIngressPaused_]
    clear, and the egress-resumed callback resumes the client although the
    flag is clear. *)
Lemma egress_pause_not_recorded :
  log (onServerEgressPaused relaying) = log relaying ++ [DPauseIngress] /\
  downstreamIngressPaused_ (onServerEgressPaused relaying) = false /\
  downstreamIngressPaused_ relaying = false /\
  log (onServerEgressResumed (onServerEgressPaused relaying))
  = log relaying ++ [DPauseIngress; DResumeIngress].
Proof. vm_compute. repeat split. Qed.

(** ** End of the upstream message *)

(** What an upstream end-of-message does: the buffer left by the response
    processing is sent, then the end-of-message unless the client has
    terminated.  Nothing records that it has been sent. *)
Lemma onServerEOM_effect (processed : IOBuf) (h : ProxyHandler) :
  log (onServerEOM processed h) =
    log h ++ DSendBody processed
          :: (if clientTerminated_ h then [] else [DSendEOM]) /\
  set_log (log h) (set_chain (chain h) (onServerEOM processed h)) = h.
Proof.
  destruct h as [rq nf fu hs rb ad bd ch se tx ct us ss dp up dl ck lg].
  destruct ct; evaluate; rewrite <- ?app_assoc; split; reflexivity.
Qed.

(** C5 fails on the code.  DELETE /x is answered by [onRequest], end of
    message included; on a forward verdict the request is forwarded all
    the same, and the end of the upstream response sends the client a
    second end-of-message: [onServerEOM] tests [clientTerminated_] and
    nothing else. *)
Lemma client_sent_two_EOMs :
  option_map (fun h => filter is_DSendEOM (log h))
    (serve [OnRequest delete_x; OnEOM forward_it ConnectPending;
            ConnectSuccess 7%nat; OnServerHeadersComplete ok_200;
            OnServerEOM (Some "ok")] fresh)
  = Some [DSendEOM; DSendEOM] /\
  option_map (fun h => count is_DSendEOM (log h))
    (serve [OnRequest delete_x; OnEOM forward_it (ConnectedAtOnce 7%nat);
            OnServerHeadersComplete ok_200; OnServerEOM (Some "ok")] fresh)
  = Some 2%nat.
Proof. vm_compute. split; reflexivity. Qed.

(** ** The request path *)

(** What [onRequest] does with a method it does not accept: one response
    with the handler's status and the reason "Bad Gateway", and nothing
    towards upstream. *)
Lemma onRequest_rejects (m : HTTPMessage) (h : ProxyHandler) :
  accepted m = false ->
  log (onRequest m h) = log h ++ RecordRequest :: immediate_response h.
Proof.
  unfold accepted, onRequest. intros A. apply negb_false_iff in A.
  rewrite A. cbn. rewrite <- app_assoc. reflexivity.
Qed.

Lemma onRequest_accepts (m : HTTPMessage) (h : ProxyHandler) :
  accepted m = true ->
  onRequest m h = set_request_ (Some m) (call RecordRequest h).
Proof.
  unfold accepted, onRequest. intros A. apply negb_true_iff in A.
  rewrite A. reflexivity.
Qed.

Lemma run_onBody (bs : list IOBuf) (evs : list Event) (h : ProxyHandler) :
  run (map OnBody bs ++ evs) h = run evs h.
Proof. induction bs as [|b bs IH]; [reflexivity|exact IH]. Qed.

(** A declined request whose method was accepted: one response, and the
    connector is left alone. *)
Lemma declined_request_one_response
  (m : HTTPMessage) (bs : list IOBuf) (rh : RequestHander)
  (o : ConnectOutcome) (h : ProxyHandler) :
  accepted m = true ->
  GetForwardFlag rh = false ->
  exists h', run (OnRequest m :: map OnBody bs ++ [OnEOM rh o]) h = Some h' /\
    log h' = log h ++ RecordRequest :: immediate_response h.
Proof.
  intros A F. cbn [run deliver]. rewrite run_onBody. cbn [run deliver].
  rewrite (onRequest_accepts m h A). unfold onEOM, ServiceRequest.
  cbn. rewrite F. cbn. eexists. split; [reflexivity|].
  cbn. rewrite <- app_assoc. reflexivity.
Qed.

(** A forwarded request whose connection is established before
    [connector_.connect] returns: the headers, then the [body] member,
    then the end-of-message. *)
Lemma forward_connected_at_once
  (rh : RequestHander) (session : HTTPUpstreamSession) (h : ProxyHandler) :
  GetForwardFlag rh = true ->
  request_ h <> None ->
  upstream_calls (onEOM rh (ConnectedAtOnce session) h) =
    Some (filter is_upstream (log h) ++
          [Connect (addr h) FLAGS_proxy_connect_timeout;
           USendHeaders (request_ h); USendBody (body h); USendEOM]).
Proof.
  destruct h as [rq nf fu hs rb ad bd ch se tx ct us ss dp up dl ck lg].
  cbn [request_]. intros F Q. destruct rq as [rq|]; [clear Q|contradiction].
  unfold onEOM, ServiceRequest, connector_connect, connectSuccess, gone.
  cbn. rewrite F. cbn. rewrite Nat.eqb_refl. cbn.
  rewrite !filter_app. cbn. rewrite <- ?app_assoc. cbn.
  rewrite ?app_nil_r. reflexivity.
Qed.

(** A forwarded request whose connection is still pending when
    [connector_.connect] returns: with no transaction yet, [onEOM] sends
    nothing upstream, and the later [connectSuccess] sends the headers
    only. *)
Lemma forward_connected_later
  (rh : RequestHander) (session : HTTPUpstreamSession) (h : ProxyHandler) :
  GetForwardFlag rh = true ->
  request_ h <> None ->
  txn_ h = None ->
  upstream_calls
    (run [OnEOM rh ConnectPending; ConnectSuccess session] h) =
    Some (filter is_upstream (log h) ++
          [Connect (addr h) FLAGS_proxy_connect_timeout;
           USendHeaders (request_ h)]).
Proof.
  destruct h as [rq nf fu hs rb ad bd ch se tx ct us ss dp up dl ck lg].
  cbn [txn_ request_]. intros F Q ->.
  destruct rq as [rq|]; [clear Q|contradiction].
  cbn [run deliver].
  unfold onEOM, ServiceRequest, connector_connect, connectSuccess, gone.
  cbn. rewrite F. cbn. rewrite Nat.eqb_refl. cbn.
  rewrite !filter_app. cbn. rewrite <- ?app_assoc. reflexivity.
Qed.

Ltac find_call :=
  repeat first [ apply in_or_app; right; left; reflexivity
               | apply in_or_app; left ].

(** On a forward verdict [onEOM] invokes the connector, whatever came
    before: also for a request that [onRequest] has already answered
    because of its method. *)
Lemma forward_verdict_reaches_connector
  (rh : RequestHander) (o : ConnectOutcome) (g g' : ProxyHandler) :
  GetForwardFlag rh = true ->
  onEOM rh o g = Some g' ->
  In (Connect (addr g) FLAGS_proxy_connect_timeout) (log g').
Proof.
  destruct g as [rq nf fu hs rb ad bd ch se tx ct us ss dp up dl ck lg].
  destruct rh as [fw url]. cbn [GetForwardFlag]. intros ->.
  destruct rq, ct, tx, o; evaluate; split_conditions; intros [= <-];
    find_call.
Qed.

Lemma rejected_request_reaches_connector
  (m : HTTPMessage) (rh : RequestHander) (o : ConnectOutcome)
  (h g' : ProxyHandler) :
  GetForwardFlag rh = true ->
  onEOM rh o (onRequest m h) = Some g' ->
  In (Connect (addr h) FLAGS_proxy_connect_timeout) (log g').
Proof.
  intros F E.
  replace (addr h) with (addr (onRequest m h))
    by (unfold onRequest; destruct (_ && _); reflexivity).
  exact (forward_verdict_reaches_connector rh o (onRequest m h) F E).
Qed.

(** C2 fails on the code.  GET /x with one body chunk, a forward verdict
    and a connection that is established after [onEOM] has returned: the
    transaction receives the headers and neither body nor end-of-message.
    When the connection is established at once the order is right, but
    the body sent is the never-assigned [body] member, not the chunk the
    client sent: [onBody] buffers nothing. *)
Lemma forwarded_body_and_EOM_dropped :
  upstream_calls
    (run [OnRequest get_x; OnBody (Some "abc");
          OnEOM forward_it ConnectPending; ConnectSuccess 7%nat] fresh)
  = Some [Connect "10.0.0.1:80" 1000; USendHeaders (Some get_x)] /\
  upstream_calls
    (run [OnRequest get_x; OnBody (Some "abc");
          OnEOM forward_it (ConnectedAtOnce 7%nat)] fresh)
  = Some [Connect "10.0.0.1:80" 1000; USendHeaders (Some get_x);
          USendBody None; USendEOM].
Proof. vm_compute. split; reflexivity. Qed.

(** C3 fails on the code.  DELETE /x is answered by [onRequest], and the
    end of the same request then runs [onEOM] unguarded: on a forward
    verdict the connector is invoked (and, connected at once, the request
    is sent upstream); on a decline verdict a second response goes to the
    client. *)
Lemma rejected_method_contacts_upstream :
  option_map (@log) (run [OnRequest delete_x] fresh)
  = Some (RecordRequest :: immediate_response fresh) /\
  upstream_calls
    (run [OnRequest delete_x; OnEOM forward_it ConnectPending] fresh)
  = Some [Connect "10.0.0.1:80" 1000] /\
  upstream_calls
    (run [OnRequest delete_x; OnEOM forward_it (ConnectedAtOnce 7%nat)] fresh)
  = Some [Connect "10.0.0.1:80" 1000; USendHeaders (Some delete_x);
          USendBody None; USendEOM] /\
  downstream_responses
    (run [OnRequest delete_x; OnEOM decline_it ConnectPending] fresh)
  = Some 2%nat.
Proof. vm_compute. repeat split. Qed.

(** C4 fails on the code.  DELETE /x with a decline verdict: no connection
    is attempted, and the client is sent two immediate responses, one by
    [onRequest] and one by [onEOM]. *)
Lemma declined_rejected_request_answered_twice :
  option_map (@log)
    (run [OnRequest delete_x; OnEOM decline_it ConnectPending] fresh)
  = Some (RecordRequest :: immediate_response fresh ++ immediate_response fresh) /\
  downstream_responses
    (run [OnRequest delete_x; OnEOM decline_it ConnectPending] fresh)
  = Some 2%nat /\
  upstream_calls
    (run [OnRequest delete_x; OnEOM decline_it ConnectPending] fresh)
  = Some [].
Proof. vm_compute. repeat split. Qed.

(** * Further properties of the callbacks *)

(** ** Invariants of the states a handler reaches *)

Lemma run_invariant (P : ProxyHandler -> Prop) :
  (forall e h h', P h -> deliver e h = Some h' -> P h') ->
  forall evs h h', P h -> run evs h = Some h' -> P h'.
Proof.
  intros step. induction evs as [|e evs IH]; intros h h' Ph R.
  - injection R as <-. exact Ph.
  - cbn [run] in R. destruct (deliver e h) as [g|] eqn:E; [|discriminate].
    exact (IH g h' (step e h g Ph E) R).
Qed.

Lemma run_app (evs1 evs2 : list Event) :
  forall h, run (evs1 ++ evs2) h =
            match run evs1 h with Some g => run evs2 g | None => None end.
Proof.
  induction evs1 as [|e evs1 IH]; intros h; [reflexivity|].
  cbn [app run]. destruct (deliver e h); [apply IH|reflexivity].
Qed.

Lemma callback_keeps_status (e : Event) (h h' : ProxyHandler) :
  deliver e h = Some h' ->
  sockStatus_ h = 0 \/ sockStatus_ h = READS_SHUTDOWN ->
  sockStatus_ h' = 0 \/ sockStatus_ h' = READS_SHUTDOWN.
Proof.
  every_callback h e; intros [= <-]; auto.
  all: intros [->| ->]; right; reflexivity.
Qed.

Lemma tidy_callback (e : Event) (h h' : ProxyHandler) :
  tidy h -> deleted h = 0%nat -> deliver e h = Some h' -> tidy h'.
Proof.
  every_callback h e; intros T D [= <-]; subst;
    intuition (discriminate || congruence).
Qed.

Lemma tidy_serve (evs : list Event) :
  forall h h', tidy h -> serve evs h = Some h' -> tidy h'.
Proof.
  induction evs as [|e evs IH]; intros h h' T R.
  - injection R as <-. exact T.
  - cbn [serve] in R. destruct (Nat.eqb_spec (deleted h) 0) as [D|D].
    + destruct (deliver e h) as [g|] eqn:E; [|discriminate].
      exact (IH g h' (tidy_callback e T D E) R).
    + injection R as <-. exact T.
Qed.

Lemma tidy_new (http_status : Z) (rsp_body address : string) :
  tidy (newProxyHandler http_status rsp_body address).
Proof. split; [reflexivity|]. left. split; [reflexivity|discriminate]. Qed.





(** X1.  Served from construction, for as long as it exists, a handler is
    gone exactly when its client has terminated and no transaction is
    attached: it is never destroyed earlier, never left behind once both
    hold, and never destroyed twice. *)
Theorem handler_exists_until_both_sides_done
  (evs : list Event) (http_status : Z) (rsp_body address : string)
  (h' : ProxyHandler) :
  serve evs (newProxyHandler http_status rsp_body address) = Some h' ->
  (deleted h' = 0%nat \/ deleted h' = 1%nat) /\
  (deleted h' = 1%nat <-> clientTerminated_ h' = true /\ txn_ h' = None) /\
  (deleted h' = 1%nat <-> terminal h').
Proof.
  intros R.
  destruct (tidy_serve evs (tidy_new http_status rsp_body address) R)
    as (U & [(D & K)|(D & C & T)]); unfold terminal; rewrite D.
  - split; [now left|]. split; split; try discriminate.
    + intros [C T]. destruct (K C T).
    + intros (C & T & _). destruct (K C T).
  - split; [now right|]. split; split; auto.
Qed.

Lemma handler_exists_until_both_sides_done_witness :
  exists h',
    serve [OnRequest get_x; OnEOM forward_it ConnectPending;
           ConnectSuccess 7%nat; RequestComplete; DetachServerTransaction;
           DetachServerTransaction] fresh = Some h' /\
    deleted h' = 1%nat /\
    (deleted h' = 1%nat <-> terminal h').
Proof.
  eexists. split; [vm_compute; reflexivity|]. split; [reflexivity|].
  apply (@handler_exists_until_both_sides_done
           [OnRequest get_x; OnEOM forward_it ConnectPending;
            ConnectSuccess 7%nat; RequestComplete; DetachServerTransaction;
            DetachServerTransaction] 502 "no route" "10.0.0.1:80").
  vm_compute. reflexivity.
Defined.

(** X2.  With a transaction attached and the client not yet terminated,
    the client's completion and the transaction's detach may come in
    either order: the handler ends in the same state, nothing is sent to
    either side, and it is destroyed, once, exactly when the raw socket
    is absent or closed and not egress-paused. *)
Theorem completion_and_detach_commute (h : ProxyHandler) :
  txn_ h <> None ->
  clientTerminated_ h = false ->
  detachServerTransaction (requestComplete h) =
    requestComplete (detachServerTransaction h) /\
  log (detachServerTransaction (requestComplete h)) = log h /\
  (deleted (detachServerTransaction (requestComplete h)) = deleted h \/
   deleted (detachServerTransaction (requestComplete h)) = S (deleted h)) /\
  (deleted (detachServerTransaction (requestComplete h)) = S (deleted h) <->
   upstreamSock_ h = false \/
   (sockStatus_ h = CLOSED /\ upstreamEgressPaused_ h = false)).
Proof.
  destruct h as [rq nf fu hs rb ad bd ch se tx ct us ss dp up dl ck lg].
  cbn [txn_ clientTerminated_]. intros T ->.
  destruct tx as [tx|]; [clear T|contradiction].
  destruct us, up; evaluate; split_conditions;
    intuition (discriminate || congruence || lia).
Qed.

Lemma completion_and_detach_commute_witness :
  let h := relaying in
  txn_ h <> None /\
  clientTerminated_ h = false /\
  detachServerTransaction (requestComplete h) =
    requestComplete (detachServerTransaction h) /\
  deleted (detachServerTransaction (requestComplete h)) = 1%nat.
Proof.
  cbv zeta.
  assert (T : txn_ relaying <> None)
    by (vm_compute; discriminate).
  assert (C : clientTerminated_ relaying
              = false) by reflexivity.
  destruct (completion_and_detach_commute
              relaying T C)
    as (E & _).
  split; [exact T|]. split; [exact C|]. split; [exact E|].
  vm_compute. reflexivity.
Defined.

(** X3.  No callback ever sets [downstreamIngressPaused_] or
    [upstreamEgressPaused_]: in every state a handler reaches both are
    clear, and a write success on the raw socket resumes nothing. *)
Theorem pause_flags_stay_clear
  (evs : list Event) (http_status : Z) (rsp_body address : string)
  (h' : ProxyHandler) :
  run evs (newProxyHandler http_status rsp_body address) = Some h' ->
  downstreamIngressPaused_ h' = false /\
  upstreamEgressPaused_ h' = false /\
  log (writeSuccess h') = log h'.
Proof.
  intros R.
  assert (F : downstreamIngressPaused_ h' = false /\
              upstreamEgressPaused_ h' = false).
  { refine (run_invariant
              (fun h => downstreamIngressPaused_ h = false /\
                        upstreamEgressPaused_ h = false) _ evs _ _ R).
    - intros e h g [A B] E.
      destruct (callback_never_sets_pause_flags e h E) as [A' B']. auto.
    - split; reflexivity. }
  destruct F as [A B]. split; [exact A|]. split; [exact B|].
  unfold writeSuccess. rewrite log_after_check.
  destruct h' as [rq nf fu hs rb ad bd ch se tx ct us ss dp up dl ck lg].
  cbn in A. subst dp. reflexivity.
Qed.

Lemma pause_flags_stay_clear_witness :
  exists h',
    run [OnRequest get_x; OnEOM forward_it (ConnectedAtOnce 7%nat);
         OnServerEgressPaused; WriteSuccess] fresh = Some h' /\
    downstreamIngressPaused_ h' = false /\
    upstreamEgressPaused_ h' = false /\
    log (writeSuccess h') = log h'.
Proof.
  eexists. split; [vm_compute; reflexivity|].
  apply (@pause_flags_stay_clear
           [OnRequest get_x; OnEOM forward_it (ConnectedAtOnce 7%nat);
            OnServerEgressPaused; WriteSuccess] 502 "no route" "10.0.0.1:80").
  vm_compute. reflexivity.
Defined.

(** X4.  No callback creates the raw socket and none sets
    [WRITES_SHUTDOWN]: in every state a handler reaches there is no raw
    socket, the socket status is 0 or [READS_SHUTDOWN], never [CLOSED],
    and the shutdown check fires exactly when the client has terminated
    and no transaction is attached. *)
Theorem closed_socket_branch_never_taken
  (evs : list Event) (http_status : Z) (rsp_body address : string)
  (h' : ProxyHandler) :
  run evs (newProxyHandler http_status rsp_body address) = Some h' ->
  upstreamSock_ h' = false /\
  (sockStatus_ h' = 0 \/ sockStatus_ h' = READS_SHUTDOWN) /\
  sockStatus_ h' <> CLOSED /\
  (snd (checkForShutdown h') = true <->
   clientTerminated_ h' = true /\ txn_ h' = None).
Proof.
  intros R.
  assert (U : upstreamSock_ h' = false)
    by exact (raw_socket_never_created evs
                (newProxyHandler http_status rsp_body address) eq_refl R).
  assert (S : sockStatus_ h' = 0 \/ sockStatus_ h' = READS_SHUTDOWN).
  { refine (run_invariant
              (fun h => sockStatus_ h = 0 \/ sockStatus_ h = READS_SHUTDOWN)
              _ evs _ _ R).
    - intros e h g A E. exact (callback_keeps_status e h E A).
    - left. reflexivity. }
  split; [exact U|]. split; [exact S|]. split.
  - destruct S as [-> | ->]; discriminate.
  - rewrite <- checkForShutdown_true_iff. unfold terminal. rewrite U.
    intuition.
Qed.

Lemma closed_socket_branch_never_taken_witness :
  exists h',
    run [OnRequest get_x; OnEOM forward_it ConnectPending;
         ConnectSuccess 7%nat; OnServerEOM None; RequestComplete] fresh
    = Some h' /\
    upstreamSock_ h' = false /\
    sockStatus_ h' <> CLOSED /\
    snd (checkForShutdown h') = false.
Proof.
  eexists. split; [vm_compute; reflexivity|].
  destruct (@closed_socket_branch_never_taken
              [OnRequest get_x; OnEOM forward_it ConnectPending;
               ConnectSuccess 7%nat; OnServerEOM None; RequestComplete]
              502 "no route" "10.0.0.1:80" _ ltac:(vm_compute; reflexivity))
    as (U & _ & N & _).
  split; [exact U|]. split; [exact N|]. vm_compute. reflexivity.
Defined.

(** ** The response path *)

Lemma calls_nil (h : ProxyHandler) : calls [] h = h.
Proof.
  destruct h. unfold calls, set_log. cbn. rewrite app_nil_r. reflexivity.
Qed.

Lemma calls_call (a : Action) (l : list Action) (h : ProxyHandler) :
  calls l (call a h) = calls (a :: l) h.
Proof.
  unfold calls, call, set_log. cbn. rewrite <- app_assoc. reflexivity.
Qed.

Lemma run_onServerBody (cs : list IOBuf) (evs : list Event) :
  forall h, clientTerminated_ h = false ->
  run (map OnServerBody cs ++ evs) h = run evs (calls (map DSendBody cs) h).
Proof.
  induction cs as [|c cs IH]; intros h C.
  - cbn. rewrite calls_nil. reflexivity.
  - cbn [map app run deliver]. unfold onServerBody. rewrite C.
    rewrite IH by exact C. rewrite calls_call. reflexivity.
Qed.

(** X5.  While the client has not terminated, the upstream response is
    passed through in order: the headers, every body chunk in the order
    received, the buffer left by the response processing, then the
    end-of-message; nothing else is sent to the client and nothing to
    upstream. *)
Theorem response_passed_through_in_order
  (msg : HTTPMessage) (cs : list IOBuf) (processed : IOBuf)
  (h : ProxyHandler) :
  clientTerminated_ h = false ->
  exists h',
    run (OnServerHeadersComplete msg :: map OnServerBody cs
         ++ [OnServerEOM processed]) h = Some h' /\
    log h' = log h ++ DSendHeaders msg :: map DSendBody cs
                   ++ [DSendBody processed; DSendEOM] /\
    deleted h' = deleted h /\
    txn_ h' = txn_ h.
Proof.
  intros C. eexists. split.
  - cbn [run deliver]. unfold onServerHeadersComplete. rewrite C.
    rewrite run_onServerBody by exact C. reflexivity.
  - rewrite calls_call. unfold onServerEOM, DoDownloadResponse.
    cbn. rewrite C. cbn. rewrite <- ?app_assoc. cbn.
    repeat split.
Qed.

Lemma response_passed_through_in_order_witness :
  let h := relaying in
  clientTerminated_ h = false /\
  exists h',
    run (OnServerHeadersComplete ok_200
         :: map OnServerBody [Some "o"; Some "k"] ++ [OnServerEOM None]) h
    = Some h' /\
    log h' = log h ++ DSendHeaders ok_200
                   :: map DSendBody [Some "o"; Some "k"]
                   ++ [DSendBody None; DSendEOM].
Proof.
  cbv zeta. split; [reflexivity|].
  destruct (@response_passed_through_in_order ok_200 [Some "o"; Some "k"] None
              relaying eq_refl)
    as (h' & R & L & _).
  exists h'. split; [exact R|exact L].
Defined.

(** X6.  Once the client has terminated, a response-headers or
    response-body callback of the transaction fails its
    [CHECK(!clientTerminated_)]: whatever else is delivered before or
    after it, the run ends in the abort of the process. *)
Theorem late_response_fails_check (evs : list Event) :
  forall h : ProxyHandler,
  clientTerminated_ h = true ->
  existsb is_checked_callback evs = true ->
  run evs h = None.
Proof.
  induction evs as [|e evs IH]; intros h C X; [discriminate|].
  cbn [existsb] in X. cbn [run].
  destruct (deliver e h) as [g|] eqn:E; [|reflexivity].
  destruct (is_checked_callback e) eqn:K.
  - destruct e; try discriminate; cbn in E;
      unfold onServerHeadersComplete, onServerBody in E;
      rewrite C in E; discriminate.
  - apply IH; [exact (clientTerminated_stays e h E C)|exact X].
Qed.

Lemma late_response_fails_check_witness :
  let h := onError relaying in
  clientTerminated_ h = true /\
  existsb is_checked_callback [OnServerEgressPaused; OnServerBody (Some "ok")]
  = true /\
  run [OnServerEgressPaused; OnServerBody (Some "ok")] h = None.
Proof.
  cbv zeta. split; [reflexivity|]. split; [reflexivity|].
  apply (@late_response_fails_check
           [OnServerEgressPaused; OnServerBody (Some "ok")]);
    reflexivity.
Defined.

(** ** Errors of the raw socket *)

(** X7.  A read error or a write error on the raw socket aborts the
    client's stream unless the client has terminated, releases the socket
    and then completes the shutdown whatever the socket status and pause
    flag were: the handler is destroyed exactly when the client has
    terminated and no transaction is attached.  A write error also clears
    [upstreamEgressPaused_]. *)
Theorem socket_error_releases_and_checks (h : ProxyHandler) :
  upstreamSock_ (readErr h) = false /\
  upstreamSock_ (writeErr h) = false /\
  upstreamEgressPaused_ (writeErr h) = false /\
  log (readErr h) =
    log h ++ (if clientTerminated_ h then [] else [DSendAbort])
          ++ (if upstreamSock_ h then [SockReset] else []) /\
  log (writeErr h) = log (readErr h) /\
  (deleted (readErr h) = S (deleted h) <->
   clientTerminated_ h = true /\ txn_ h = None) /\
  (deleted (readErr h) = deleted h <->
   ~ (clientTerminated_ h = true /\ txn_ h = None)) /\
  deleted (writeErr h) = deleted (readErr h).
Proof.
  destruct h as [rq nf fu hs rb ad bd ch se tx ct us ss dp up dl ck lg].
  destruct ct, tx, us, up; evaluate; split_conditions;
    rewrite ?app_nil_r; rewrite <- ?app_assoc; cbn [app];
    intuition (discriminate || congruence || lia).
Qed.

(** ** The connector *)

Lemma count_app (p : Action -> bool) (l1 l2 : list Action) :
  count p (l1 ++ l2) = (count p l1 + count p l2)%nat.
Proof. unfold count. rewrite filter_app, length_app. reflexivity. Qed.

Lemma callback_connects (e : Event) (h h' : ProxyHandler) :
  deliver e h = Some h' ->
  addr h' = addr h /\
  exists l, log h' = log h ++ l /\
    count is_connect l = (if is_forward_EOM e then 1 else 0)%nat /\
    (forall x t, In (Connect x t) l ->
       x = addr h /\ t = FLAGS_proxy_connect_timeout).
Proof.
  every_callback h e; intros [= <-]; (split; [reflexivity|]); log_suffix.
  all: split; [reflexivity|].
  all: cbn [In app]; intros x t; intuition (discriminate || congruence).
Qed.

(** X8.  The connector is invoked by [onEOM] on a forward verdict and by
    nothing else, once per such verdict and never again after a failure;
    every attempt is given the [addr] member and the flag's timeout,
    whatever target the decision returned. *)
Theorem one_connect_per_forward_verdict (evs : list Event) :
  forall h h' : ProxyHandler,
  run evs h = Some h' ->
  addr h' = addr h /\
  exists l, log h' = log h ++ l /\
    count is_connect l = List.length (filter is_forward_EOM evs) /\
    (forall x t, In (Connect x t) l ->
       x = addr h /\ t = FLAGS_proxy_connect_timeout).
Proof.
  induction evs as [|e evs IH]; intros h h' R.
  - injection R as <-. split; [reflexivity|]. exists [].
    rewrite app_nil_r. repeat split; contradiction.
  - cbn [run] in R. destruct (deliver e h) as [g|] eqn:E; [|discriminate].
    destruct (callback_connects e h E) as (A1 & l1 & L1 & N1 & X1).
    destruct (IH g h' R) as (A2 & l2 & L2 & N2 & X2).
    split; [congruence|]. exists (l1 ++ l2).
    rewrite L2, L1, app_assoc. split; [reflexivity|]. split.
    + rewrite count_app, N1, N2. cbn [filter].
      destruct (is_forward_EOM e); reflexivity.
    + intros x t I. apply in_app_iff in I as [I|I].
      * exact (X1 x t I).
      * rewrite <- A1. exact (X2 x t I).
Qed.

Lemma one_connect_per_forward_verdict_witness :
  exists h' l,
    run [OnRequest get_x; OnEOM forward_it FailedAtOnce;
         OnEOM decline_it ConnectPending; ConnectError] fresh = Some h' /\
    log h' = log fresh ++ l /\
    count is_connect l = 1%nat.
Proof.
  destruct (@one_connect_per_forward_verdict
              [OnRequest get_x; OnEOM forward_it FailedAtOnce;
               OnEOM decline_it ConnectPending; ConnectError] fresh
              _ ltac:(vm_compute; reflexivity))
    as (_ & l & L & N & _).
  eexists. exists l. split; [vm_compute; reflexivity|].
  split; [exact L|exact N].
Defined.

(** ** Fields that are written and never read *)

Lemma scrub_callback (e : Event) (h g : ProxyHandler) :
  scrub h = scrub g ->
  option_map scrub (deliver e h) = option_map scrub (deliver e g).
Proof.
  destruct h as [rq nf fu hs rb ad bd ch se tx ct us ss dp up dl ck lg].
  destruct g as [rq' nf' fu' hs' rb' ad' bd' ch' se' tx' ct' us' ss' dp' up' dl' ck' lg'].
  unfold scrub, set_session_, set_forward_url_, set_need_forward_. cbn.
  intros E. injection E. intros. subst.
  destruct rq' as [rq'|], ct', tx' as [tx'|], us', dp', up';
  destruct e as [m|b|[fw url] [|s|]| | | | | | | | | | | | | | | | | | | | ];
  try destruct fw;
  evaluate; split_conditions; reflexivity.
Qed.

Lemma scrub_log (h g : ProxyHandler) : scrub h = scrub g -> log h = log g.
Proof. intros E. change (log (scrub h) = log (scrub g)). now rewrite E. Qed.

(** X9.  The target URL returned by the decision, the forward flag left
    by an earlier decision and the session wrapper are write-only: two
    handlers that differ in nothing else answer every sequence of
    callbacks with the same calls on their collaborators, fail the same
    checks, and again differ in nothing else. *)
Theorem forward_url_and_session_never_read (evs : list Event) :
  forall h g : ProxyHandler,
  scrub h = scrub g ->
  option_map scrub (run evs h) = option_map scrub (run evs g) /\
  option_map (@log) (run evs h) = option_map (@log) (run evs g).
Proof.
  induction evs as [|e evs IH]; intros h g E.
  - cbn. rewrite E, (@scrub_log h g E). split; reflexivity.
  - cbn [run]. pose proof (@scrub_callback e h g E) as S.
    destruct (deliver e h) as [h1|], (deliver e g) as [g1|];
      cbn [option_map] in S; try discriminate; [|split; reflexivity].
    apply IH.
    exact (f_equal (fun o => match o with Some x => x | None => scrub h1 end) S).
Qed.

Lemma forward_url_and_session_never_read_witness :
  let g := set_forward_url_ "10.9.9.9:8080" fresh in
  scrub fresh = scrub g /\
  option_map (@log)
    (run [OnRequest get_x; OnEOM forward_it (ConnectedAtOnce 7%nat)] fresh)
  = option_map (@log)
      (run [OnRequest get_x; OnEOM forward_it (ConnectedAtOnce 7%nat)] g).
Proof.
  cbv zeta. split; [reflexivity|].
  apply (@forward_url_and_session_never_read
           [OnRequest get_x; OnEOM forward_it (ConnectedAtOnce 7%nat)]
           fresh (set_forward_url_ "10.9.9.9:8080" fresh)).
  reflexivity.
Defined.

(** ** The request forwarded upstream *)

Lemma callback_keeps_request (e : Event) (h h' : ProxyHandler) :
  deliver e h = Some h' -> is_onRequest e = false -> request_ h' = request_ h.
Proof.
  every_callback h e; intros [= <-]; auto; discriminate.
Qed.

Lemma run_keeps_request (evs : list Event) :
  forall h h',
  forallb (fun e => negb (is_onRequest e)) evs = true ->
  run evs h = Some h' -> request_ h' = request_ h.
Proof.
  induction evs as [|e evs IH]; intros h h' A R.
  - injection R as <-. reflexivity.
  - cbn [forallb] in A. apply andb_true_iff in A as [A1 A2].
    apply negb_true_iff in A1.
    cbn [run] in R. destruct (deliver e h) as [g|] eqn:E; [|discriminate].
    rewrite (IH g h' A2 R). exact (callback_keeps_request e h E A1).
Qed.

(** X10.  The request sent upstream is the client's, as received: whatever
    is delivered between [onRequest] and the connector's success, and
    whether or not [onRequest] answered the request itself, the new
    transaction is handed the very message [onRequest] was given, and the
    client's ingress is resumed right after. *)
Theorem request_forwarded_as_received
  (m : HTTPMessage) (evs : list Event) (session : HTTPUpstreamSession)
  (h h' : ProxyHandler) :
  forallb (fun e => negb (is_onRequest e)) evs = true ->
  run (OnRequest m :: evs ++ [ConnectSuccess session]) h = Some h' ->
  request_ h' = Some m /\
  txn_ h' = Some (newTransaction session) /\
  exists l, log h' = l ++ [USendHeaders (Some m); DResumeIngress].
Proof.
  intros A R. cbn [run deliver] in R. rewrite run_app in R.
  destruct (run evs (onRequest m h)) as [g|] eqn:G; [|discriminate].
  assert (Q : request_ g = Some m).
  { rewrite (run_keeps_request evs (onRequest m h) A G).
    unfold onRequest. destruct (_ && _); reflexivity. }
  cbn [run deliver] in R. unfold connectSuccess in R. cbn in R.
  rewrite Q in R. injection R as <-. cbn.
  split; [exact Q|]. split; [reflexivity|].
  exists (log g). rewrite <- app_assoc. reflexivity.
Qed.

Lemma request_forwarded_as_received_witness :
  exists h',
    forallb (fun e => negb (is_onRequest e))
      [OnBody (Some "abc"); OnEOM forward_it ConnectPending; OnEgressPaused]
    = true /\
    run (OnRequest delete_x
         :: [OnBody (Some "abc"); OnEOM forward_it ConnectPending;
             OnEgressPaused] ++ [ConnectSuccess 7%nat]) fresh = Some h' /\
    request_ h' = Some delete_x /\
    txn_ h' = Some (newTransaction 7%nat).
Proof.
  eexists. split; [reflexivity|]. split; [vm_compute; reflexivity|].
  destruct (@request_forwarded_as_received delete_x
              [OnBody (Some "abc"); OnEOM forward_it ConnectPending;
               OnEgressPaused] 7%nat fresh _ eq_refl
              ltac:(vm_compute; reflexivity))
    as (Q & T & _).
  split; [exact Q|exact T].
Defined.

(** X11.  [onRequest] lets a request through exactly when its method is
    GET or POST; any other method, and a method the parser did not
    recognise, is answered on the spot with the handler's status, the
    reason "Bad Gateway", the handler's body and the end-of-message.
    Either way the request is recorded and kept. *)
Theorem only_GET_and_POST_pass (m : HTTPMessage) (h : ProxyHandler) :
  (accepted m = true <->
   getMethod m = Some GET \/ getMethod m = Some POST) /\
  log (onRequest m h) =
    log h ++ RecordRequest
          :: (if accepted m then [] else immediate_response h) /\
  request_ (onRequest m h) = Some m /\
  set_log (log h) (set_request_ (request_ h) (onRequest m h)) = h.
Proof.
  destruct h as [rq nf fu hs rb ad bd ch se tx ct us ss dp up dl ck lg].
  destruct m as [[[]|] url code reason]; unfold accepted; cbn;
    rewrite <- ?app_assoc; repeat split;
    intuition (discriminate || congruence).
Qed.

(** ** The raw socket as a tunnel *)

Lemma run_readDataAvailable (ds : list string) (evs : list Event) :
  forall h,
  run (map ReadDataAvailable ds ++ evs) h =
  run evs (calls (map (fun d => DSendBody (Some d)) ds) h).
Proof.
  induction ds as [|d ds IH]; intros h.
  - cbn. rewrite calls_nil. reflexivity.
  - cbn [map app run deliver]. unfold readDataAvailable.
    rewrite IH, calls_call. reflexivity.
Qed.

(** X12.  [connectSuccess()] of the raw socket sends the client a 200 "OK"
    header block without end-of-message, attaches the socket's read
    callback and resumes the client's ingress; every buffer read from the
    socket is then sent to the client in the order read.  None of this
    looks at [clientTerminated_], and no field changes.  On a handler
    without a raw socket the callback dereferences the null socket and
    does not complete. *)
Theorem tunnel_reads_forwarded_in_order
  (ds : list string) (h : ProxyHandler) :
  run (SockConnectSuccess :: map ReadDataAvailable ds) h =
  if upstreamSock_ h
  then Some (calls ([DSendHeaders ok_200; SockSetReadCB true; DResumeIngress]
                    ++ map (fun d => DSendBody (Some d)) ds) h)
  else None.
Proof.
  destruct h as [rq nf fu hs rb ad bd ch se tx ct us ss dp up dl ck lg].
  cbn [run deliver]. unfold connectSuccess_sock. cbn.
  destruct us; [|reflexivity].
  rewrite <- (app_nil_r (map ReadDataAvailable ds)), run_readDataAvailable.
  cbn [run]. unfold calls, call, set_log. cbn.
  rewrite <- !app_assoc. reflexivity.
Qed.

(** ** Client abort during the relay *)

(** X13.  A client error while a transaction is attached sends that
    transaction one abort, sends the client nothing, leaves the raw socket
    alone and does not destroy the handler; the transaction's detach then
    destroys it, once, exactly when the raw socket is absent or closed and
    not egress-paused. *)
Theorem client_abort_then_detach (h : ProxyHandler) :
  txn_ h <> None ->
  log (onError h) = log h ++ [USendAbort] /\
  deleted (onError h) = deleted h /\
  upstreamSock_ (onError h) = upstreamSock_ h /\
  log (detachServerTransaction (onError h)) = log h ++ [USendAbort] /\
  (deleted (detachServerTransaction (onError h)) = deleted h \/
   deleted (detachServerTransaction (onError h)) = S (deleted h)) /\
  (deleted (detachServerTransaction (onError h)) = S (deleted h) <->
   upstreamSock_ h = false \/
   (sockStatus_ h = CLOSED /\ upstreamEgressPaused_ h = false)).
Proof.
  destruct h as [rq nf fu hs rb ad bd ch se tx ct us ss dp up dl ck lg].
  cbn [txn_]. intros T.
  destruct tx as [tx|]; [clear T|contradiction].
  destruct ct, us, up; evaluate; split_conditions;
    intuition (discriminate || congruence || lia).
Qed.

Lemma client_abort_then_detach_witness :
  let h := relaying in
  txn_ h <> None /\
  log (detachServerTransaction (onError h)) = log h ++ [USendAbort] /\
  deleted (onError h) = 0%nat /\
  deleted (detachServerTransaction (onError h)) = 1%nat.
Proof.
  cbv zeta.
  assert (T : txn_ relaying <> None)
    by (vm_compute; discriminate).
  destruct (client_abort_then_detach
              relaying T)
    as (_ & _ & _ & L & _).
  split; [exact T|]. split; [exact L|].
  split; vm_compute; reflexivity.
Defined.
